(** * BidFlow AI (app.py): ingestion, business profile and the staged
      proposal pipeline.

    A shallow embedding of the core of [app.py]: the two helper functions
    [extract_text_from_pdf] and [load_business_profile], the task
    descriptions built by the f-strings of the script, the sequential
    orchestrator the script hands its tasks to, and the script itself as
    Streamlit reruns it, with the session state it keeps between reruns.

    Conventions.  A Python [str] is a [string]; one element stands for one
    character, so [String.length] is Python's [len] and [slice_to n s] is
    [s[:n]].  A call that may raise returns a sum: [inl] carries the
    exception, [inr] the value. *)

From Stdlib Require Import Ascii.
From stdpp Require Import gmap strings list fin_maps.

Local Open Scope string_scope.
Local Open Scope list_scope.

(** ** Python string helpers *)

Module PyStr.

(** [s[:n]] for a non-negative [n]: the first [n] characters, or all of [s]
    when it is shorter. *)
Fixpoint slice_to (n : N) (s : string) : string :=
  match s with
  | EmptyString => ""
  | String c s' => if (n =? 0)%N then "" else String c (slice_to (N.pred n) s')
  end.

(** [s[n:]], what [s[:n]] leaves out. *)
Fixpoint slice_from (n : N) (s : string) : string :=
  match s with
  | EmptyString => ""
  | String c s' => if (n =? 0)%N then s else slice_from (N.pred n) s'
  end.

(** [len(s)] as a Python integer. *)
Definition len (s : string) : N := N.of_nat (String.length s).

(** Truthiness of a string: [bool(s)]. *)
Definition truthy (s : string) : bool :=
  match s with
  | EmptyString => false
  | String _ _ => true
  end.

(** [needle in hay]. *)
Fixpoint contains_b (needle hay : string) : bool :=
  String.prefix needle hay
  || match hay with
     | EmptyString => false
     | String _ hay' => contains_b needle hay'
     end.

(** [needle] occurs in [hay] as a literal substring. *)
Definition contains (needle hay : string) : Prop :=
  exists pre post, hay = pre +:+ needle +:+ post.

(** [a] is an initial segment of [s]. *)
Definition is_prefix (a s : string) : Prop :=
  exists rest, s = a +:+ rest.

(** ["".join(l)]. *)
Definition join (l : list string) : string :=
  foldr String.append "" l.

End PyStr.

(** ** Document ingestion ([extract_text_from_pdf]) *)

Module Ingest.
Import PyStr.

(** A page of the parsed document.  [page.extract_text()] yields a string,
    possibly empty; [None] stands for an absent result.  Both are falsy. *)
Record PageObject := { extract_text : option string }.

(** The uploaded file handed to the reader: the raw bytes plus what the
    upload widget attaches to them. *)
Record UploadedFile := {
  file_name : string;
  file_id : nat;
  file_bytes : string
}.

(** The parser's failure on a document that cannot be read at all. *)
Inductive PdfReadError := PdfReadError_ (msg : string).

(** Truthiness of [content] in [if content:]. *)
Definition content_truthy (content : option string) : bool :=
  match content with
  | Some c => truthy c
  | None => false
  end.

(** One iteration of the loop body:
<<
        content = page.extract_text()
        if content:
            text += content
>> *)
Definition loop_body (text : string) (page : PageObject) : string :=
  match extract_text page with
  | Some content => if truthy content then text +:+ content else text
  | None => text
  end.

(** The loop over [reader.pages], starting from [text = ""]. *)
Definition extract_pages (pages : list PageObject) : string :=
  fold_left loop_body pages "".

(** The text-bearing pages' contents, in document order. *)
Definition page_texts (pages : list PageObject) : list string :=
  omap (fun p => match extract_text p with
                 | Some c => if truthy c then Some c else None
                 | None => None
                 end) pages.

Section Reader.

(** [PyPDF2.PdfReader]: the parser, a function of the file's bytes that
    either fails or yields the pages in document order. *)
Variable PdfReader : string -> PdfReadError + list PageObject.

(** [extract_text_from_pdf(pdf_file)]: a parse failure propagates, a parsed
    document goes through the page loop. *)
Definition extract_text_from_pdf (pdf_file : UploadedFile)
  : PdfReadError + string :=
  match PdfReader (file_bytes pdf_file) with
  | inl e => inl e
  | inr pages => inr (extract_pages pages)
  end.

End Reader.

End Ingest.

(** ** The business profile ([load_business_profile]) *)

Module Profile.

(** The exceptions [open] and [read] can raise on a path; [OSError] stands
    for the plain operating-system errors with their [errno] (a symbolic
    link that loops, an I/O error, ...). *)
Inductive PyException :=
| FileNotFoundError
| PermissionError
| IsADirectoryError
| UnicodeDecodeError
| OSError (errno : N).

(** What a path, as it is passed to [open], resolves to: a regular file
    with its read permission and its bytes (one element per byte), a
    directory, or something the operating system refuses to open. *)
Inductive fs_entry :=
| RegularFile (readable : bool) (content : string)
| Directory
| Unopenable (errno : N).

(** What [open(path, "r")] depends on: the files, and the locale's
    encoding, which text mode decodes with when [encoding] is not passed.
    [locale_decode] is [None] where Python raises [UnicodeDecodeError]. *)
Record FileSystem := {
  files : gmap string fs_entry;
  locale_decode : string -> option string
}.

Definition CR : ascii := "013"%char.
Definition LF : ascii := "010"%char.

(** Universal newlines, the default of text mode ([newline=None]): on
    reading, each ["\r\n"] and each lone ["\r"] becomes ["\n"]. *)
Fixpoint universal_newlines (text : string) : string :=
  match text with
  | EmptyString => ""
  | String c rest =>
      if Ascii.eqb c CR then
        match rest with
        | String d rest' =>
            if Ascii.eqb d LF
            then String LF (universal_newlines rest')
            else String LF (universal_newlines rest)
        | EmptyString => String LF ""
        end
      else String c (universal_newlines rest)
  end.

(** [CR in text]. *)
Fixpoint has_cr (text : string) : bool :=
  match text with
  | EmptyString => false
  | String c rest => Ascii.eqb c CR || has_cr rest
  end.

(** The ['ascii'] codec: bytes below 128 are the characters of the same
    code, any other byte is a decode error.  On files of such bytes only,
    UTF-8, Latin-1 and the other ASCII-compatible encodings decode alike. *)
Definition is_ascii (c : ascii) : bool :=
  match c with
  | Ascii _ _ _ _ _ _ _ high => negb high
  end.

Fixpoint all_ascii (bytes : string) : bool :=
  match bytes with
  | EmptyString => true
  | String c rest => is_ascii c && all_ascii rest
  end.

Definition ascii_decode (bytes : string) : option string :=
  if all_ascii bytes then Some bytes else None.

(** [with open(path, "r") as f: return f.read()]: [open] raises on an
    absent path, a file without read permission, a directory and whatever
    else the system refuses; [read] decodes the bytes with the locale's
    encoding, raising on bytes that do not decode, and translates the
    newlines. *)
Definition open_and_read (fs : FileSystem) (path : string)
  : PyException + string :=
  match files fs !! path with
  | None => inl FileNotFoundError
  | Some Directory => inl IsADirectoryError
  | Some (Unopenable errno) => inl (OSError errno)
  | Some (RegularFile false _) => inl PermissionError
  | Some (RegularFile true bytes) =>
      match locale_decode fs bytes with
      | None => inl UnicodeDecodeError
      | Some text => inr (universal_newlines text)
      end
  end.

Definition profile_path : string := "my_business_profile.txt".

Definition default_profile : string :=
  "Standard IT services and software engineering expertise.".

(** The [try] block with its single handler, [except FileNotFoundError]:
    that exception alone turns into the default, any other one leaves the
    function. *)
Definition load_business_profile (fs : FileSystem)
  : PyException + string :=
  match open_and_read fs profile_path with
  | inr text => inr text
  | inl FileNotFoundError => inr default_profile
  | inl e => inl e
  end.

End Profile.

(** ** Agents and tasks of the script *)

Module Tasks.
Import PyStr.

Record Agent := {
  role : string;
  goal : string;
  backstory : string;
  verbose : bool;
  allow_delegation : bool
}.

Record Task := {
  description : string;
  expected_output : string;
  agent : Agent
}.

(** The truncation limits of the two f-strings. *)
Definition extraction_limit : N := 5000.
Definition audit_limit : N := 6000.

Definition extraction_agent : Agent :=
  {| role := "Requirement Analyst";
     goal := "Extract 5 mandatory requirements from the text.";
     backstory := "Specialist in identifying project scope and deliverables.";
     verbose := false;
     allow_delegation := false |}.

Definition auditor : Agent :=
  {| role := "Compliance Auditor";
     goal := "Ensure our response addresses every technical requirement found.";
     backstory := "Expert in matching corporate capabilities to project needs.";
     verbose := true;
     allow_delegation := false |}.

Definition strategist : Agent :=
  {| role := "Senior Proposal Writer";
     goal := "Write a persuasive, high-value proposal based on our profile and the tender.";
     backstory := "Master of technical sales and executive communication.";
     verbose := true;
     allow_delegation := false |}.

(** The excerpt [tender_text[:5000]] of the extraction task. *)
Definition extraction_excerpt (tender_text : string) : string :=
  slice_to extraction_limit tender_text.

(** The excerpt [tender_text[:6000]] of the audit task. *)
Definition audit_excerpt (tender_text : string) : string :=
  slice_to audit_limit tender_text.

Definition extraction_task (tender_text : string) : Task :=
  {| description :=
       "Summarize the 5 most important technical requirements from this text: "
       +:+ extraction_excerpt tender_text;
     expected_output := "A bulleted list of 5 requirements.";
     agent := extraction_agent |}.

Definition task_matching (tender_text profile : string) : Task :=
  {| description :=
       "Compare these tender requirements: "
       +:+ audit_excerpt tender_text
       +:+ " against our company profile: "
       +:+ profile
       +:+ ". Find the 3 strongest 'selling points' we have for this client.";
     expected_output := "An internal analysis of why we are the right choice.";
     agent := auditor |}.

Definition task_final_proposal : Task :=
  {| description :=
       "Using the audit results, write a formal 4-section proposal: Executive Summary, Proposed Solution, Past Experience, and Call to Action.";
     expected_output :=
       "A professional, markdown-formatted business proposal document.";
     agent := strategist |}.

End Tasks.

(** ** The sequential orchestrator

    The script builds [Crew(agents=..., tasks=..., process=Process.sequential)]
    and calls [kickoff()] on it.  The class behind that call is imported
    ([from crewai import Agent, Task, Crew, Process, LLM]); its body is not
    part of [app.py].  The definitions of this module give it the behaviour
    the specification describes for the orchestrator. *)

Module Orchestrator.
Import PyStr Tasks.

(** Modelled from the spec: the typed failures of the remote
    text-generation service (section 4.5), missing from the sources. *)
Inductive ClientError :=
| AuthError
| RateLimitError
| TimeoutError
| ProviderError (msg : string).

(** Modelled from the spec: the language-model client of section 4.5 as the
    orchestrator sees it, missing from the sources: a prompt goes out,
    generated text or a typed failure comes back. *)
Definition LanguageModelClient : Type := string -> ClientError + string.

(** Modelled from the spec: the error of a misconfigured pipeline
    (section 7), missing from the sources: [stage] declares [dependency],
    which no earlier stage provides. *)
Inductive DependencyError :=
| UnsatisfiedDependency (stage dependency : string).

(** Modelled from the spec: the stage descriptor of section 3, missing from
    the sources.  The role, goal and backstory are those of the task's
    agent, the prompt template is the task's description and the expected
    output description its [expected_output]; the identifier and the
    declared upstream dependencies are added to them. *)
Record PipelineStage := {
  stage_id : string;
  task : Task;
  requiredUpstreamStageIds : list string
}.

(** The first declared dependency of [s] that is not among [seen]. *)
Definition missing_dependency (seen : list string) (s : PipelineStage)
  : option string :=
  List.find (fun d => negb (bool_decide (d ∈ seen)))
            (requiredUpstreamStageIds s).

(** Modelled from the spec: the construction-time validation of section 4.4,
    missing from the sources.  Every stage's dependencies must be satisfied
    by stages preceding it in the sequence; [seen] holds the identifiers of
    the stages already passed. *)
Fixpoint validate (seen : list string) (stages : list PipelineStage)
  : option DependencyError :=
  match stages with
  | [] => None
  | s :: rest =>
      match missing_dependency seen s with
      | Some d => Some (UnsatisfiedDependency (stage_id s) d)
      | None => validate (seen ++ [stage_id s]) rest
      end
  end.

Record PipelineOrchestrator := { stages : list PipelineStage }.

(** Modelled from the spec: the orchestrator's constructor (the [Crew(...)]
    call of the script), missing from the sources.  It fails fast with a
    [DependencyError] and takes no client: nothing can be sent from here. *)
Definition new_orchestrator (sts : list PipelineStage)
  : DependencyError + PipelineOrchestrator :=
  match validate [] sts with
  | Some e => inl e
  | None => inr {| stages := sts |}
  end.

Definition newline : string := String "010"%char "".

(** The output stored in the context under [d]; an absent key reads as the
    empty text. *)
Definition upstream_output (ctx : gmap string string) (d : string) : string :=
  default "" (ctx !! d).

(** Modelled from the spec: [build_prompt] of section 4.3, missing from the
    sources.  The prompt is the stage's prompt template (the task
    description, in which the f-string has already placed the excerpt of
    the source text and the profile) followed by the outputs of the stage's
    declared dependencies, read from the context, one per line. *)
Definition build_prompt (ctx : gmap string string) (s : PipelineStage)
  : string :=
  description (task s)
  +:+ join ((fun d => newline +:+ upstream_output ctx d)
              <$> requiredUpstreamStageIds s).

(** *** A run: the log of prompts sent so far is threaded through, and a
    failure ends it. *)

Definition Run (A : Type) : Type :=
  list string -> (ClientError + A) * list string.

Definition ret {A} (a : A) : Run A := fun calls => (inr a, calls).

Definition bind {A B} (m : Run A) (k : A -> Run B) : Run B :=
  fun calls =>
    match m calls with
    | (inl e, calls') => (inl e, calls')
    | (inr a, calls') => k a calls'
    end.

Notation "'let*' x ':=' m 'in' k" := (bind m (fun x => k))
  (at level 10, x name, m at level 100, k at level 200).

(** One remote call: the prompt is logged, then the client answers. *)
Definition generate (client : LanguageModelClient) (prompt : string)
  : Run string :=
  fun calls => (client prompt, calls ++ [prompt]).

(** Modelled from the spec: the stage loop of section 4.4, missing from the
    sources.  For each stage in order: build its prompt from the current
    context, invoke the client, store the result under the stage's
    identifier, and continue; the first failure aborts the loop.  [last] is
    the output of the stage run most recently. *)
Fixpoint run_stages (client : LanguageModelClient)
    (ctx : gmap string string) (last : string) (sts : list PipelineStage)
  : Run (gmap string string * string) :=
  match sts with
  | [] => ret (ctx, last)
  | s :: rest =>
      let* out := generate client (build_prompt ctx s) in
      run_stages client (<[stage_id s := out]> ctx) out rest
  end.

(** Modelled from the spec: [execute] ([crew.kickoff()] in the script),
    missing from the sources.  The context starts empty and the final
    stage's output is the artifact. *)
Definition kickoff (client : LanguageModelClient) (o : PipelineOrchestrator)
  : Run string :=
  let* r := run_stages client ∅ "" (stages o) in
  ret r.2.

(** Construction followed by execution, as the script does it:
    [crew = Crew(...)] and then [crew.kickoff()], from an empty log. *)
Definition run_pipeline (client : LanguageModelClient)
    (sts : list PipelineStage)
  : (DependencyError + (ClientError + string)) * list string :=
  match new_orchestrator sts with
  | inl e => (inl e, [])
  | inr o => let '(r, calls) := kickoff client o [] in (inr r, calls)
  end.

(** Some stage of [sts] declares a dependency that no stage before it in
    the sequence provides. *)
Definition has_unsatisfied_dependency (sts : list PipelineStage) : Prop :=
  exists pre s post d,
    sts = pre ++ s :: post
    /\ d ∈ requiredUpstreamStageIds s
    /\ d ∉ stage_id <$> pre.

End Orchestrator.

(** ** The pipelines of the script *)

Module App.
Import PyStr Tasks Orchestrator.

(** Modelled from the spec: the stage identifier, missing from the sources.
    The single task is the script's: [Crew(agents=[extraction_agent],
    tasks=[extraction_task])]. *)
Definition extraction_pipeline (tender_text : string) : list PipelineStage :=
  [ {| stage_id := "extraction";
       task := extraction_task tender_text;
       requiredUpstreamStageIds := [] |} ].

(** Modelled from the spec: the stage identifiers and the declared
    dependency, missing from the sources (section 4.4: the synthesis stage
    depends explicitly on the audit stage's output).  The tasks and their
    order are the script's: [tasks=[task_matching, task_final_proposal]],
    [process=Process.sequential]. *)
Definition proposal_pipeline (tender_text profile : string)
  : list PipelineStage :=
  [ {| stage_id := "audit";
       task := task_matching tender_text profile;
       requiredUpstreamStageIds := [] |};
    {| stage_id := "synthesis";
       task := task_final_proposal;
       requiredUpstreamStageIds := ["audit"] |} ].

(** What the page shows after the button is pressed. *)
Inductive UiEvent :=
| Subheader (label : string)
| Markdown (body : string)
| DownloadButton (label data file_name mime : string).

(** The body of [if st.button(...)]: the crew is built and kicked off; no
    [try] surrounds either, so an exception leaves the block before
    anything is rendered.  On success the result is shown and offered for
    download. *)
Definition generate_proposal (client : LanguageModelClient)
    (tender_text profile : string)
  : (DependencyError + (ClientError + string)) * list string * list UiEvent :=
  match run_pipeline client (proposal_pipeline tender_text profile) with
  | (inr (inr final_result), calls) =>
      (inr (inr final_result), calls,
       [ Subheader "📄 Final Strategic Proposal";
         Markdown final_result;
         DownloadButton "Download Proposal as Text" final_result
                        "Strategic_Proposal.txt" "text/plain" ])
  | (failure, calls) => (failure, calls, [])
  end.

End App.

(** ** Stand-ins used by the examples *)

Module Samples.
Import PyStr Ingest Profile Tasks Orchestrator App.

(** The fixed text the stub client answers the audit stage with. *)
Definition audit_sentinel : string := "AUDIT: price, support, SLA".

(** A stub client: the audit stage's prompt gets the sentinel, any other
    prompt a fixed proposal. *)
Definition stub_client : LanguageModelClient :=
  fun prompt =>
    if String.prefix "Compare these tender requirements: " prompt
    then inr audit_sentinel
    else inr "# Proposal".

(** A client whose service times out on the synthesis stage. *)
Definition timeout_on_synthesis : LanguageModelClient :=
  fun prompt =>
    if String.prefix "Using the audit results" prompt
    then inl TimeoutError
    else inr "three selling points".

(** A stand-in parser: a single page holding the bytes as its text. *)
Definition one_page_reader (bytes : string)
  : PdfReadError + list PageObject :=
  inr [ {| extract_text := Some bytes |} ].

(** A two-page document, the first page empty. *)
Definition uptime_pages : list PageObject :=
  [ {| extract_text := Some "" |};
    {| extract_text := Some "Must support 99.9% uptime." |} ].

(** A stand-in parser that finds that document in every upload. *)
Definition uptime_reader (bytes : string)
  : PdfReadError + list PageObject :=
  inr uptime_pages.

(** A scanned document: pages without a text layer. *)
Definition scanned_pages : list PageObject :=
  [ {| extract_text := None |}; {| extract_text := Some "" |} ].

(** An upload. *)
Definition upload_a : UploadedFile :=
  {| file_name := "tender.pdf"; file_id := 1; file_bytes := "%PDF-1.7 scope" |}.

(** File systems under an ASCII locale: no profile, a profile, a profile
    without read permission, a profile holding the byte 0xFF, and a profile
    saved with Windows line ends. *)
Definition fs_without_profile : FileSystem :=
  {| files := ∅; locale_decode := ascii_decode |}.
Definition fs_with_profile : FileSystem :=
  {| files :=
       {[ profile_path :=
            RegularFile true "Cloud migration and 24/7 support." ]};
     locale_decode := ascii_decode |}.
Definition fs_locked_profile : FileSystem :=
  {| files :=
       {[ profile_path :=
            RegularFile false "Cloud migration and 24/7 support." ]};
     locale_decode := ascii_decode |}.
Definition fs_binary_profile : FileSystem :=
  {| files := {[ profile_path := RegularFile true (String "255"%char "") ]};
     locale_decode := ascii_decode |}.
Definition crlf_bytes : string :=
  "Cloud migration." +:+ String CR (String LF "24/7 support.").
Definition fs_crlf_profile : FileSystem :=
  {| files := {[ profile_path := RegularFile true crlf_bytes ]};
     locale_decode := ascii_decode |}.

(** A pipeline whose only stage asks for an output nobody produces. *)
Definition dangling_pipeline : list PipelineStage :=
  [ {| stage_id := "synthesis";
       task := task_final_proposal;
       requiredUpstreamStageIds := ["audit"] |} ].

End Samples.

(** ** The script, one rerun at a time

    Streamlit runs [app.py] from top to bottom on every interaction.  The
    widgets' values are the inputs of a rerun; [st.session_state] is the
    only thing the script carries from one rerun to the next.  What the
    imported libraries do is left open: the parser and [Crew.kickoff] are
    section variables, and every [st.*] call is recorded in order. *)

Module Script.
Import PyStr Ingest Profile Tasks.

Inductive Process := sequential | hierarchical.

(** The arguments of a [Crew(...)] call; [process] is [None] where the call
    does not pass it. *)
Record Crew := {
  agents : list Agent;
  tasks : list Task;
  process : option Process
}.

(** The [st.*] calls of the script, with their arguments; the widgets carry
    the value they return. *)
Inductive StCall :=
| st_set_page_config (page_title layout page_icon : string)
| st_markdown (body : string) (unsafe_allow_html : bool)
| st_title (body : string)
| st_divider
| st_header (body : string)
| st_checkbox (label help : string) (value : bool)
| st_info (body : string)
| st_caption (body : string)
| st_file_uploader (label type_ : string) (value : option UploadedFile)
| st_spinner (text : string)
| st_success (body : string)
| st_subheader (body : string)
| st_warning (body : string)
| st_button (label : string) (value : bool)
| st_status (label : string) (expanded : bool)
| st_status_update (label state : string) (expanded : bool)
| st_download_button (label data file_name mime : string)
| st_sidebar (call : StCall).

(** The widgets' values in one rerun. *)
Record Inputs := {
  view_profile : bool;
  uploaded_file : option UploadedFile;
  show_requirements : bool;
  generate_clicked : bool
}.

(** The state a rerun works on: the session state, the calls rendered so
    far and the crews kicked off so far. *)
Record Page := {
  session_state : gmap string string;
  rendered : list StCall;
  kickoffs : list Crew
}.

Definition custom_css : string :=
"
    <style>
    .main { background-color: #f8f9fa; }
    .stButton>button { width: 100%; border-radius: 5px; height: 3em; background-color: #ff4b4b; color: white; }
    .reportview-container .main .block-container { padding-top: 2rem; }
    </style>
    ".

(** The crew of the requirements display:
    [Crew(agents=[extraction_agent], tasks=[extraction_task])]. *)
Definition crew_extract (tender_text : string) : Crew :=
  {| agents := [extraction_agent];
     tasks := [extraction_task tender_text];
     process := None |}.

(** The crew of the proposal: [Crew(agents=[auditor, strategist],
    tasks=[task_matching, task_final_proposal], process=Process.sequential)]. *)
Definition crew (tender_text profile : string) : Crew :=
  {| agents := [auditor; strategist];
     tasks := [task_matching tender_text profile; task_final_proposal];
     process := Some sequential |}.

Section Rerun.

(** The exceptions of [Crew.kickoff]. *)
Variable KickoffException : Type.

(** [PyPDF2.PdfReader], as in [Ingest]. *)
Variable PdfReader : string -> PdfReadError + list PageObject.

(** [Crew.kickoff()]: the result's text, or an exception. *)
Variable crew_kickoff : Crew -> KickoffException + string.

(** The file system [load_business_profile] reads. *)
Variable fs : FileSystem.

(** What can end a rerun early. *)
Inductive ScriptError :=
| ProfileError (e : PyException)
| IngestError (e : PdfReadError)
| KickoffError (e : KickoffException)
| AttributeError (key : string).

(** A step of the script: it works on the page and either raises or
    returns. *)
Definition M (A : Type) : Type := Page -> (ScriptError + A) * Page.

Definition mret {A} (a : A) : M A := fun p => (inr a, p).

Definition mbind {A B} (m : M A) (k : A -> M B) : M B :=
  fun p =>
    match m p with
    | (inl e, p') => (inl e, p')
    | (inr a, p') => k a p'
    end.

Notation "'do' x <- m ; k" := (mbind m (fun x => k))
  (at level 10, x name, m at level 100, k at level 200).
Notation "m ;; k" := (mbind m (fun _ => k))
  (at level 100, k at level 200, right associativity).

(** An [st.*] call. *)
Definition st (c : StCall) : M unit :=
  fun p => (inr tt, {| session_state := session_state p;
                       rendered := rendered p ++ [c];
                       kickoffs := kickoffs p |}).

(** [key in st.session_state]. *)
Definition has_key (key : string) : M bool :=
  fun p => (inr (bool_decide (is_Some (session_state p !! key))), p).

(** [st.session_state.key], an [AttributeError] when the key is absent. *)
Definition get_attr (key : string) : M string :=
  fun p =>
    match session_state p !! key with
    | Some v => (inr v, p)
    | None => (inl (AttributeError key), p)
    end.

(** [st.session_state.key = v]. *)
Definition set_attr (key v : string) : M unit :=
  fun p => (inr tt, {| session_state := <[key := v]> (session_state p);
                       rendered := rendered p;
                       kickoffs := kickoffs p |}).

(** [c.kickoff()]: the crew is recorded, then the library answers. *)
Definition kickoff (c : Crew) : M string :=
  fun p =>
    (match crew_kickoff c with
     | inl e => inl (KickoffError e)
     | inr result => inr result
     end,
     {| session_state := session_state p;
        rendered := rendered p;
        kickoffs := kickoffs p ++ [c] |}).

(** [profile = load_business_profile()]. *)
Definition call_load_business_profile : M string :=
  fun p =>
    (match load_business_profile fs with
     | inl e => inl (ProfileError e)
     | inr profile => inr profile
     end, p).

(** [extract_text_from_pdf(uploaded_file)]. *)
Definition call_extract_text_from_pdf (f : UploadedFile) : M string :=
  fun p =>
    (match extract_text_from_pdf PdfReader f with
     | inl e => inl (IngestError e)
     | inr text => inr text
     end, p).

(** Lines 38-51: page set-up. *)
Definition page_setup : M unit :=
  st (st_set_page_config "BidFlow AI | Enterprise RFP" "wide" "🚀") ;;
  st (st_markdown custom_css true) ;;
  st (st_title "🚀 BidFlow AI: Strategic RFP Response Engine") ;;
  st (st_markdown "Automating the bridge between Client Requirements and Your Technical Solutions." false) ;;
  st st_divider.

(** Lines 54-63: the sidebar; it returns [profile]. *)
Definition sidebar_block (inp : Inputs) : M string :=
  st (st_sidebar (st_header "🏢 Your Business Identity")) ;;
  st (st_sidebar (st_markdown "This info is used to prove why you are the best fit." false)) ;;
  do profile <- call_load_business_profile ;
  st (st_sidebar (st_checkbox "🔍 View My Business Profile"
                    "Show the facts the AI uses to represent YOU."
                    (view_profile inp))) ;;
  (if view_profile inp then st (st_sidebar (st_info profile)) else mret tt) ;;
  st (st_sidebar st_divider) ;;
  st (st_sidebar (st_caption "v2.1 | Powered by Agentic RAG Architecture")) ;;
  mret profile.

(** Lines 70-73: the tender text is extracted unless the session has it. *)
Definition ingest_block (f : UploadedFile) : M unit :=
  do cached <- has_key "tender_text" ;
  if cached then mret tt
  else
    st (st_spinner "Analyzing document structure...") ;;
    do text <- call_extract_text_from_pdf f ;
    set_attr "tender_text" text ;;
    st (st_success "Tender Content Successfully Ingested!").

(** Lines 76-99: the requirements display. *)
Definition requirements_block (inp : Inputs) : M unit :=
  st (st_subheader "📋 Client Requirements Analysis") ;;
  st (st_markdown "The AI has identified the following core needs from the uploaded document:" false) ;;
  st (st_checkbox "👀 Show Extracted Tender Requirements"
        "Show what the AI understood from the CLIENT'S document."
        (show_requirements inp)) ;;
  if show_requirements inp then
    do cached <- has_key "extracted_reqs" ;
    (if cached then mret tt
     else
       st (st_spinner "Agents are extracting mandatory points...") ;;
       do tender_text <- get_attr "tender_text" ;
       do result <- kickoff (crew_extract tender_text) ;
       set_attr "extracted_reqs" result) ;;
    do reqs <- get_attr "extracted_reqs" ;
    st (st_warning reqs)
  else mret tt.

(** Lines 104-154: the proposal. *)
Definition proposal_block (inp : Inputs) (profile : string) : M unit :=
  st (st_button "✨ Generate Strategic Business Proposal" (generate_clicked inp)) ;;
  if generate_clicked inp then
    do tender_text <- get_attr "tender_text" ;
    st (st_status "Agents are collaborating on your proposal..." true) ;;
    do final_result <- kickoff (crew tender_text profile) ;
    st (st_status_update "Proposal Generation Complete!" "complete" false) ;;
    st (st_subheader "📄 Final Strategic Proposal") ;;
    st (st_markdown final_result false) ;;
    st (st_download_button "Download Proposal as Text" final_result
          "Strategic_Proposal.txt" "text/plain")
  else mret tt.

(** The whole script. *)
Definition script (inp : Inputs) : M unit :=
  page_setup ;;
  do profile <- sidebar_block inp ;
  st (st_file_uploader "Upload Client Tender/RFP (PDF)" "pdf" (uploaded_file inp)) ;;
  match uploaded_file inp with
  | Some f =>
      ingest_block f ;;
      requirements_block inp ;;
      st st_divider ;;
      proposal_block inp profile
  | None => mret tt
  end.

(** One rerun on the session state [session]. *)
Definition rerun (inp : Inputs) (session : gmap string string)
  : (ScriptError + unit) * Page :=
  script inp {| session_state := session; rendered := []; kickoffs := [] |}.

(** *** The rerun without its rendering

    What a rerun returns or raises, the session state it leaves and the
    crews it kicks off, written out as one decision tree.  [rerun_effect]
    proves that this is what [rerun] does. *)

(** What is observed of a rerun once the rendering is set aside. *)
Definition observe (r : (ScriptError + unit) * Page)
  : (ScriptError + unit) * gmap string string * list Crew :=
  (r.1, session_state r.2, kickoffs r.2).

(** The tender text the rest of the rerun works with, and the session state
    it is found in. *)
Definition tender_step (f : UploadedFile) (session : gmap string string)
  : PdfReadError + (string * gmap string string) :=
  match session !! "tender_text" with
  | Some text => inr (text, session)
  | None =>
      match extract_text_from_pdf PdfReader f with
      | inl e => inl e
      | inr text => inr (text, <["tender_text" := text]> session)
      end
  end.

Definition proposal_step (inp : Inputs) (tender_text profile : string)
    (session : gmap string string) (kicked : list Crew)
  : (ScriptError + unit) * gmap string string * list Crew :=
  if generate_clicked inp then
    (match crew_kickoff (crew tender_text profile) with
     | inl e => inl (KickoffError e)
     | inr _ => inr tt
     end, session, kicked ++ [crew tender_text profile])
  else (inr tt, session, kicked).

Definition requirements_step (inp : Inputs) (tender_text profile : string)
    (session : gmap string string)
  : (ScriptError + unit) * gmap string string * list Crew :=
  if show_requirements inp then
    match session !! "extracted_reqs" with
    | Some _ => proposal_step inp tender_text profile session []
    | None =>
        match crew_kickoff (crew_extract tender_text) with
        | inl e => (inl (KickoffError e), session, [crew_extract tender_text])
        | inr result =>
            proposal_step inp tender_text profile
              (<["extracted_reqs" := result]> session)
              [crew_extract tender_text]
        end
    end
  else proposal_step inp tender_text profile session [].

Definition effect (inp : Inputs) (session : gmap string string)
  : (ScriptError + unit) * gmap string string * list Crew :=
  match load_business_profile fs with
  | inl e => (inl (ProfileError e), session, [])
  | inr profile =>
      match uploaded_file inp with
      | None => (inr tt, session, [])
      | Some f =>
          match tender_step f session with
          | inl e => (inl (IngestError e), session, [])
          | inr (tender_text, session') =>
              requirements_step inp tender_text profile session'
          end
      end
  end.

End Rerun.

Arguments ProfileError {KickoffException} e.
Arguments IngestError {KickoffException} e.
Arguments KickoffError {KickoffException} e.
Arguments AttributeError {KickoffException} key.

(** The inputs with another file in the uploader. *)
Definition with_upload (inp : Inputs) (f : option UploadedFile) : Inputs :=
  {| view_profile := view_profile inp;
     uploaded_file := f;
     show_requirements := show_requirements inp;
     generate_clicked := generate_clicked inp |}.

(** The inputs of the rerun after a click: the button is up again. *)
Definition released (inp : Inputs) : Inputs :=
  {| view_profile := view_profile inp;
     uploaded_file := uploaded_file inp;
     show_requirements := show_requirements inp;
     generate_clicked := false |}.

End Script.

(** ** Stand-ins for reruns *)

Module ScriptSamples.
Import Ingest Profile Tasks Script.

(** A crew library that answers a one-task crew with requirements and any
    other crew with a proposal. *)
Definition counting_kickoff (c : Crew) : unit + string :=
  inr (match tasks c with
       | [_] => "five requirements"
       | _ => "# Proposal"
       end).

(** A crew library that always fails. *)
Definition failing_kickoff (c : Crew) : unit + string := inl tt.

(** A parser that rejects every upload. *)
Definition rejecting_reader (bytes : string)
  : PdfReadError + list PageObject :=
  inl (PdfReadError_ "EOF marker not found").

Definition all_on : Inputs :=
  {| view_profile := true;
     uploaded_file := Some Samples.upload_a;
     show_requirements := true;
     generate_clicked := true |}.

Definition idle : Inputs :=
  {| view_profile := false;
     uploaded_file := None;
     show_requirements := true;
     generate_clicked := true |}.

Definition other_upload : UploadedFile :=
  {| file_name := "second.pdf"; file_id := 7; file_bytes := "%PDF-1.4 another" |}.

Definition warm_session : gmap string string :=
  {[ "tender_text" := "old tender"; "extracted_reqs" := "old requirements" ]}.

Fixpoint repeat_char (c : ascii) (n : nat) : string :=
  match n with
  | O => ""
  | S n' => String c (repeat_char c n')
  end.

(** A tender text of exactly 6000 characters. *)
Definition long_tender : string := repeat_char "x" (N.to_nat 6000).

(** A three-page document with an empty page in the middle. *)
Definition three_pages : list PageObject :=
  [ {| extract_text := Some "Scope." |};
    {| extract_text := None |};
    {| extract_text := Some "Budget." |} ].

End ScriptSamples.

(** * Properties *)

(** ** Strings *)

Module PyStrFacts.
Import PyStr.

Lemma str_app_nil_l (s : string) : "" +:+ s = s.
Proof. reflexivity. Qed.

Lemma str_app_cons (c : ascii) (s t : string) :
  String c s +:+ t = String c (s +:+ t).
Proof. reflexivity. Qed.

Lemma str_app_nil_r (s : string) : s +:+ "" = s.
Proof. induction s as [|c s IH]; [reflexivity|]. rewrite str_app_cons. by f_equal. Qed.

Lemma str_app_assoc (s t u : string) : (s +:+ t) +:+ u = s +:+ t +:+ u.
Proof.
  induction s as [|c s IH]; [reflexivity|].
  rewrite !str_app_cons. by f_equal.
Qed.

Lemma str_length_app (s t : string) :
  String.length (s +:+ t) = String.length s + String.length t.
Proof.
  induction s as [|c s IH]; [reflexivity|].
  rewrite str_app_cons. simpl. by rewrite IH.
Qed.

Lemma str_app_eq_nil (s t : string) : s +:+ t = "" -> s = "" /\ t = "".
Proof. destruct s; [rewrite str_app_nil_l; auto | rewrite str_app_cons; discriminate]. Qed.

Lemma truthy_true (s : string) : truthy s = true <-> s <> "".
Proof. destruct s; simpl; split; congruence. Qed.

Lemma truthy_false (s : string) : truthy s = false <-> s = "".
Proof. destruct s; simpl; split; congruence. Qed.

(** A slice and what it leaves out make up the string again. *)
Lemma slice_to_from (n : N) (s : string) :
  slice_to n s +:+ slice_from n s = s.
Proof.
  revert n. induction s as [|c s IH]; intros n; simpl; [reflexivity|].
  destruct (n =? 0)%N; [reflexivity|].
  rewrite str_app_cons. by rewrite IH.
Qed.

Lemma slice_to_is_prefix (n : N) (s : string) : is_prefix (slice_to n s) s.
Proof. exists (slice_from n s). by rewrite slice_to_from. Qed.

(** [len(s[:n]) = min(n, len(s))]. *)
Lemma len_slice_to (n : N) (s : string) :
  len (slice_to n s) = N.min n (len s).
Proof.
  unfold len. revert n. induction s as [|c s IH]; intros n; simpl.
  - lia.
  - destruct (n =? 0)%N eqn:E.
    + apply N.eqb_eq in E. subst n. simpl. lia.
    + apply N.eqb_neq in E. cbn [String.length]. rewrite Nat2N.inj_succ, IH. lia.
Qed.

Lemma len_slice_to_le (n : N) (s : string) : (len (slice_to n s) <= n)%N.
Proof. rewrite len_slice_to. lia. Qed.

(** A text within the limit is passed whole. *)
Lemma slice_to_short (n : N) (s : string) :
  (len s <= n)%N -> slice_to n s = s.
Proof.
  unfold len. revert n. induction s as [|c s IH]; intros n Hn; simpl; [reflexivity|].
  cbn [String.length] in Hn.
  destruct (n =? 0)%N eqn:E.
  - apply N.eqb_eq in E. lia.
  - f_equal. apply IH. lia.
Qed.

Lemma prefix_true (a s : string) :
  String.prefix a s = true <-> is_prefix a s.
Proof.
  revert a. induction s as [|d s IH]; intros [|c a]; simpl.
  - split; [by exists "" | done].
  - split; [discriminate | intros [r Hr]; rewrite str_app_cons in Hr; discriminate].
  - split; [by exists (String d s) | done].
  - destruct (ascii_dec c d) as [->|Hne].
    + rewrite IH. split; intros [r Hr]; exists r.
      * rewrite str_app_cons. by f_equal.
      * rewrite str_app_cons in Hr. by injection Hr.
    + split; [discriminate|].
      intros [r Hr]. rewrite str_app_cons in Hr. injection Hr as Hc _. congruence.
Qed.

(** Python's [in] decides [contains]. *)
Lemma contains_b_true (needle hay : string) :
  contains_b needle hay = true <-> contains needle hay.
Proof.
  induction hay as [|d hay IH].
  - cbn [contains_b]. rewrite orb_false_r, prefix_true. split.
    + intros [r Hr]. exists "", r. by rewrite str_app_nil_l.
    + intros (pre & post & H). symmetry in H.
      apply str_app_eq_nil in H as [-> H].
      apply str_app_eq_nil in H as [-> ->]. by exists "".
  - cbn [contains_b]. rewrite orb_true_iff, prefix_true, IH. split.
    + intros [[r Hr]|(pre & post & H)].
      * exists "", r. by rewrite str_app_nil_l.
      * exists (String d pre), post. rewrite str_app_cons. by f_equal.
    + intros (pre & post & H). destruct pre as [|c pre].
      * left. exists post. by rewrite str_app_nil_l in H.
      * right. rewrite str_app_cons in H. injection H as _ H. by exists pre, post.
Qed.

Lemma contains_mid (pre s post : string) : contains s (pre +:+ s +:+ post).
Proof. by exists pre, post. Qed.

Lemma contains_app_r (s a b : string) : contains s b -> contains s (a +:+ b).
Proof.
  intros (pre & post & ->). exists (a +:+ pre), post. by rewrite str_app_assoc.
Qed.

Lemma contains_app_l (s a b : string) : contains s a -> contains s (a +:+ b).
Proof.
  intros (pre & post & ->). exists pre, (post +:+ b). by rewrite !str_app_assoc.
Qed.

End PyStrFacts.

(** ** Ingestion *)

Module IngestFacts.
Import PyStr PyStrFacts Ingest.

Lemma join_cons (s : string) (l : list string) : join (s :: l) = s +:+ join l.
Proof. reflexivity. Qed.

Lemma join_app (l k : list string) : join (l ++ k) = join l +:+ join k.
Proof.
  induction l as [|s l IH]; [reflexivity|].
  rewrite <- app_comm_cons, !join_cons, IH. by rewrite str_app_assoc.
Qed.

Lemma page_texts_nil : page_texts [] = [].
Proof. reflexivity. Qed.

Lemma page_texts_cons (p : PageObject) (pages : list PageObject) :
  page_texts (p :: pages) =
  (if content_truthy (extract_text p)
   then default "" (extract_text p) :: page_texts pages
   else page_texts pages).
Proof.
  unfold page_texts. cbn [omap list_omap].
  destruct (extract_text p) as [c|]; [|reflexivity].
  cbn [content_truthy default]. by destruct (truthy c).
Qed.

Lemma page_texts_app (l k : list PageObject) :
  page_texts (l ++ k) = page_texts l ++ page_texts k.
Proof.
  induction l as [|p l IH]; [reflexivity|].
  rewrite <- app_comm_cons, !page_texts_cons, IH.
  by destruct (content_truthy (extract_text p)).
Qed.

(** The body of the loop appends the page's text when there is one. *)
Lemma loop_body_text (text : string) (p : PageObject) :
  loop_body text p =
  (if content_truthy (extract_text p)
   then text +:+ default "" (extract_text p)
   else text).
Proof. unfold loop_body. by destruct (extract_text p). Qed.

(** Loop invariant: after any number of pages the accumulator is what it
    was, followed by the texts of the pages passed. *)
Lemma fold_loop_body (pages : list PageObject) (text : string) :
  fold_left loop_body pages text = text +:+ join (page_texts pages).
Proof.
  revert text. induction pages as [|p pages IH]; intros text.
  - cbn. by rewrite str_app_nil_r.
  - cbn [fold_left]. rewrite IH, loop_body_text, page_texts_cons.
    destruct (content_truthy (extract_text p)); [|reflexivity].
    by rewrite join_cons, str_app_assoc.
Qed.

Lemma extract_pages_join (pages : list PageObject) :
  extract_pages pages = join (page_texts pages).
Proof. unfold extract_pages. by rewrite fold_loop_body. Qed.

Lemma extract_pages_app (l k : list PageObject) :
  extract_pages (l ++ k) = extract_pages l +:+ extract_pages k.
Proof. by rewrite !extract_pages_join, page_texts_app, join_app. Qed.

(** Every text kept by [page_texts] is non-empty. *)
Lemma page_texts_nonempty (pages : list PageObject) (t : string) :
  t ∈ page_texts pages -> t <> "".
Proof.
  induction pages as [|p pages IH]; [by intros ?%elem_of_nil|].
  rewrite page_texts_cons.
  destruct (extract_text p) as [c|] eqn:E; cbn [content_truthy]; [|done].
  destruct (truthy c) eqn:T; [|done].
  intros [->|H]%elem_of_cons; [by apply truthy_true | by apply IH].
Qed.

Lemma page_texts_all_empty (pages : list PageObject) :
  (forall p, p ∈ pages -> content_truthy (extract_text p) = false) ->
  page_texts pages = [].
Proof.
  induction pages as [|p pages IH]; intros H; [reflexivity|].
  rewrite page_texts_cons, (H p); [|by left].
  apply IH. intros q Hq. apply H. by right.
Qed.

Lemma page_texts_some (pages : list PageObject) (p : PageObject) :
  p ∈ pages -> content_truthy (extract_text p) = true ->
  default "" (extract_text p) ∈ page_texts pages.
Proof.
  induction pages as [|q pages IH]; [by intros ?%elem_of_nil|].
  intros [->|H]%elem_of_cons Hp; rewrite page_texts_cons.
  - rewrite Hp. by left.
  - destruct (content_truthy (extract_text q)); [right|]; by apply IH.
Qed.

Lemma join_nonempty (l : list string) (t : string) :
  t ∈ l -> t <> "" -> join l <> "".
Proof.
  induction l as [|s l IH]; [by intros ?%elem_of_nil|].
  intros [->|H]%elem_of_cons Ht; rewrite join_cons; intros E;
    apply str_app_eq_nil in E as [E1 E2]; [done | by apply IH].
Qed.

Lemma get_app_here (x : string) (c : ascii) (y : string) :
  String.get (String.length x) (x +:+ String c y) = Some c.
Proof. induction x as [|d x IH]; [reflexivity|]. rewrite str_app_cons. exact IH. Qed.

Lemma get_app_next (x : string) (c d : ascii) (y : string) :
  String.get (S (String.length x)) (x +:+ String c (String d y)) = Some d.
Proof. induction x as [|e x IH]; [reflexivity|]. rewrite str_app_cons. exact IH. Qed.

(** Scenario A: the empty page contributes nothing. *)
Example extract_pages_uptime :
  extract_pages Samples.uptime_pages = "Must support 99.9% uptime.".
Proof. reflexivity. Qed.

(** A document without a text layer is read as the empty string. *)
Example extract_pages_scanned : extract_pages Samples.scanned_pages = "".
Proof. reflexivity. Qed.

(** C3: for a document the parser reads, ingestion returns (without
    raising) the texts of the pages whose extraction is non-empty,
    concatenated in document order; the result is the empty string when no
    page yields text, a zero-page document included, and non-empty as soon
    as one page does. *)
Theorem ingest_concatenates_text_pages
    (PdfReader : string -> PdfReadError + list PageObject)
    (pdf_file : UploadedFile) (pages : list PageObject) :
  PdfReader (file_bytes pdf_file) = inr pages ->
  exists text,
    extract_text_from_pdf PdfReader pdf_file = inr text
    /\ text = join (page_texts pages)
    /\ (pages = [] -> text = "")
    /\ ((forall p, p ∈ pages -> content_truthy (extract_text p) = false) ->
        text = "")
    /\ ((exists p, p ∈ pages /\ content_truthy (extract_text p) = true) ->
        text <> "").
Proof.
  intros Hparse. exists (extract_pages pages).
  unfold extract_text_from_pdf. rewrite Hparse.
  split; [reflexivity|]. rewrite extract_pages_join.
  split; [reflexivity|]. split; [by intros ->|]. split.
  - intros Hall. by rewrite page_texts_all_empty.
  - intros (p & Hin & Hp).
    eapply join_nonempty; [by apply page_texts_some|].
    eapply page_texts_nonempty. by apply page_texts_some.
Qed.

(** The two-page document with an empty first page is read as the text of
    its second page. *)
Lemma ingest_concatenates_text_pages_witness :
  extract_text_from_pdf Samples.uptime_reader Samples.upload_a
  = inr "Must support 99.9% uptime.".
Proof.
  destruct (ingest_concatenates_text_pages
              Samples.uptime_reader Samples.upload_a _ eq_refl)
    as (text & Hrun & Htext & _).
  rewrite Hrun, Htext. reflexivity.
Defined.

(** C9: consecutive text-bearing pages are joined with nothing between
    them: the output is the text before, the first page's text, the second
    page's text and the text after, and the last character of the first
    page's text sits right before the first character of the second's. *)
Theorem adjacent_pages_no_separator
    (pre post : list PageObject) (p q : PageObject)
    (a b : string) (ca cb : ascii) :
  extract_text p = Some (a +:+ String ca "") ->
  extract_text q = Some (String cb b) ->
  let out := extract_pages (pre ++ p :: q :: post) in
  let i := String.length (extract_pages pre +:+ a) in
  out = extract_pages pre +:+ (a +:+ String ca "") +:+ String cb b
        +:+ extract_pages post
  /\ String.get i out = Some ca
  /\ String.get (S i) out = Some cb.
Proof.
  intros Hp Hq out i.
  assert (Hout : out = extract_pages pre +:+ (a +:+ String ca "")
                       +:+ String cb b +:+ extract_pages post).
  { subst out. rewrite extract_pages_app.
    change (p :: q :: post) with ([p] ++ [q] ++ post).
    rewrite !extract_pages_app. unfold extract_pages at 2 3.
    cbn [fold_left]. rewrite !loop_body_text, Hp, Hq.
    assert (Ha : content_truthy (Some (a +:+ String ca "")) = true).
    { cbn [content_truthy]. apply truthy_true. intros E.
      apply str_app_eq_nil in E as [_ E]. discriminate. }
    rewrite Ha. cbn [content_truthy truthy default].
    by rewrite !str_app_nil_l. }
  split; [exact Hout|].
  rewrite Hout. subst i.
  rewrite (str_app_assoc a), <- (str_app_assoc (extract_pages pre) a).
  rewrite !str_app_cons, str_app_nil_l.
  split; [apply get_app_here | apply get_app_next].
Qed.

Lemma adjacent_pages_no_separator_witness :
  extract_pages [ {| extract_text := Some "scope." |};
                  {| extract_text := Some "Budget" |} ]
  = "scope.Budget".
Proof.
  destruct (adjacent_pages_no_separator [] []
              {| extract_text := Some "scope." |}
              {| extract_text := Some "Budget" |}
              "scope" "udget" "." "B" eq_refl eq_refl) as (Hout & _).
  exact (eq_trans Hout eq_refl).
Defined.

End IngestFacts.

(** ** The business profile *)

Module ProfileFacts.
Import PyStr Profile.

Lemma open_and_read_absent (fs : FileSystem) (path : string) :
  open_and_read fs path = inl FileNotFoundError <-> files fs !! path = None.
Proof.
  unfold open_and_read.
  destruct (files fs !! path) as [[[] bytes| |errno]|];
    [destruct (locale_decode fs bytes)|..]; split; congruence.
Qed.

(** A text without carriage returns passes the newline translation
    unchanged. *)
Lemma universal_newlines_without_cr (text : string) :
  has_cr text = false -> universal_newlines text = text.
Proof.
  induction text as [|c rest IH]; [reflexivity|].
  cbn [has_cr universal_newlines]. intros H.
  apply orb_false_iff in H as [Hc Hrest]. rewrite Hc.
  f_equal. by apply IH.
Qed.

(** What the translation returns holds no carriage return. *)
Lemma universal_newlines_has_no_cr (text : string) :
  has_cr (universal_newlines text) = false.
Proof.
  remember (String.length text) as n eqn:Hn. revert text Hn.
  induction (lt_wf n) as [n _ IH]. intros text ->.
  destruct text as [|c rest]; [reflexivity|].
  cbn [universal_newlines]. destruct (Ascii.eqb c CR) eqn:Hc.
  - destruct rest as [|d rest']; [reflexivity|].
    destruct (Ascii.eqb d LF); cbn [has_cr];
      change (Ascii.eqb LF CR) with false; cbn [orb];
      eapply IH; try reflexivity; cbn [String.length]; lia.
  - cbn [has_cr]. rewrite Hc. cbn [orb].
    eapply IH; try reflexivity. cbn [String.length]. lia.
Qed.

(** The three line ends, and a carriage return at the end of the text. *)
Example universal_newlines_line_ends :
  universal_newlines
    ("a" +:+ String CR (String LF ("b" +:+ String CR ("c" +:+ String LF
       ("d" +:+ String CR "")))))
  = "a" +:+ String LF ("b" +:+ String LF ("c" +:+ String LF
       ("d" +:+ String LF ""))).
Proof. reflexivity. Qed.

(** The load on a readable profile file whose bytes decode. *)
Lemma load_business_profile_readable (fs : FileSystem) (bytes text : string) :
  files fs !! profile_path = Some (RegularFile true bytes) ->
  locale_decode fs bytes = Some text ->
  load_business_profile fs = inr (universal_newlines text).
Proof.
  intros Hfile Hdecode. unfold load_business_profile, open_and_read.
  by rewrite Hfile, Hdecode.
Qed.

(** C4, as the code has it: when the profile file is absent the load
    returns exactly the fixed default string; when it exists, may be read
    and decodes in the locale's encoding, the load returns the decoded text
    with each carriage return + line feed and each lone carriage return
    replaced by a line feed, hence the text unchanged when it holds no
    carriage return. *)
Theorem load_business_profile_text_mode (fs : FileSystem) :
  default_profile = "Standard IT services and software engineering expertise."
  /\ (files fs !! profile_path = None ->
      load_business_profile fs = inr default_profile)
  /\ (forall bytes text,
        files fs !! profile_path = Some (RegularFile true bytes) ->
        locale_decode fs bytes = Some text ->
        load_business_profile fs = inr (universal_newlines text)
        /\ (has_cr text = false -> load_business_profile fs = inr text)).
Proof.
  split; [reflexivity|]. split.
  - intros Habsent. unfold load_business_profile, open_and_read.
    by rewrite Habsent.
  - intros bytes text Hfile Hdecode.
    rewrite (load_business_profile_readable fs bytes text Hfile Hdecode).
    split; [reflexivity|]. intros Hcr.
    by rewrite universal_newlines_without_cr.
Qed.

Lemma load_business_profile_text_mode_witness :
  load_business_profile Samples.fs_without_profile
  = inr "Standard IT services and software engineering expertise."
  /\ load_business_profile Samples.fs_with_profile
     = inr "Cloud migration and 24/7 support."
  /\ load_business_profile Samples.fs_crlf_profile
     = inr (universal_newlines Samples.crlf_bytes).
Proof.
  split; [|split].
  - destruct (load_business_profile_text_mode Samples.fs_without_profile)
      as (_ & Habsent & _).
    apply Habsent. reflexivity.
  - destruct (load_business_profile_text_mode Samples.fs_with_profile)
      as (_ & _ & Hpresent).
    destruct (Hpresent "Cloud migration and 24/7 support."
                "Cloud migration and 24/7 support." eq_refl eq_refl)
      as [_ Hverbatim].
    apply Hverbatim. reflexivity.
  - destruct (load_business_profile_text_mode Samples.fs_crlf_profile)
      as (_ & _ & Hpresent).
    destruct (Hpresent Samples.crlf_bytes Samples.crlf_bytes
                eq_refl eq_refl) as [Htranslated _].
    exact Htranslated.
Defined.

(** C4 as stated fails: a readable profile file saved with Windows line
    ends decodes to a text with a carriage return before the line feed, and
    the load returns another text, with the line feed alone. *)
Lemma load_business_profile_not_verbatim :
  files Samples.fs_crlf_profile !! profile_path
  = Some (RegularFile true Samples.crlf_bytes)
  /\ locale_decode Samples.fs_crlf_profile Samples.crlf_bytes
     = Some ("Cloud migration." +:+ String CR (String LF "24/7 support."))
  /\ load_business_profile Samples.fs_crlf_profile
     = inr ("Cloud migration." +:+ String LF "24/7 support.")
  /\ load_business_profile Samples.fs_crlf_profile
     <> inr ("Cloud migration." +:+ String CR (String LF "24/7 support."))
  /\ ~ (forall fs bytes text,
          files fs !! profile_path = Some (RegularFile true bytes) ->
          locale_decode fs bytes = Some text ->
          load_business_profile fs = inr text).
Proof.
  split; [reflexivity|]. split; [reflexivity|]. split; [reflexivity|].
  split; [by vm_compute|].
  intros H.
  specialize (H Samples.fs_crlf_profile Samples.crlf_bytes
                Samples.crlf_bytes eq_refl eq_refl).
  by vm_compute in H.
Qed.

(** C5, as the code has it: only "file not found" is turned into the
    default; every other error of opening or reading the file leaves the
    function as the exception it is. *)
Theorem load_business_profile_propagates
    (fs : FileSystem) (e : PyException) :
  open_and_read fs profile_path = inl e ->
  e <> FileNotFoundError ->
  load_business_profile fs = inl e.
Proof.
  intros Hopen Hne. unfold load_business_profile. rewrite Hopen.
  by destruct e.
Qed.

Lemma load_business_profile_propagates_witness :
  load_business_profile Samples.fs_binary_profile = inl UnicodeDecodeError.
Proof.
  apply (load_business_profile_propagates Samples.fs_binary_profile
           UnicodeDecodeError); [reflexivity | discriminate].
Defined.

(** C5 as stated fails: with a profile file that may not be read, the load
    raises [PermissionError] and does not return the default. *)
Lemma load_business_profile_raises :
  load_business_profile Samples.fs_locked_profile = inl PermissionError
  /\ load_business_profile Samples.fs_locked_profile <> inr default_profile
  /\ ~ (forall fs, exists text, load_business_profile fs = inr text).
Proof.
  split; [reflexivity|]. split; [discriminate|].
  intros H. destruct (H Samples.fs_locked_profile) as [text Ht].
  discriminate Ht.
Qed.

(** The load returns a value exactly when the file is absent or is a
    readable file whose bytes decode. *)
Lemma load_business_profile_returns (fs : FileSystem) (text : string) :
  load_business_profile fs = inr text <->
  (files fs !! profile_path = None /\ text = default_profile)
  \/ exists bytes decoded,
       files fs !! profile_path = Some (RegularFile true bytes)
       /\ locale_decode fs bytes = Some decoded
       /\ text = universal_newlines decoded.
Proof.
  unfold load_business_profile, open_and_read.
  destruct (files fs !! profile_path) as [[[] bytes| |errno]|];
    [destruct (locale_decode fs bytes) as [decoded|] eqn:Hd|..];
    (split; [intros H | intros [[? ?]|(b & d & ? & ? & ?)]]);
    simplify_eq; eauto 10.
Qed.

End ProfileFacts.

(** ** Task descriptions *)

Module TasksFacts.
Import PyStr PyStrFacts Tasks.

(** C6: the excerpt of the tender text placed in a task description is the
    text cut from its start and never longer than the stage's limit: 5000
    characters for the extraction task, 6000 for the audit task. *)
Theorem excerpt_within_limit (tender_text profile : string) :
  (description (extraction_task tender_text)
   = "Summarize the 5 most important technical requirements from this text: "
     +:+ extraction_excerpt tender_text
   /\ (len (extraction_excerpt tender_text) <= 5000)%N
   /\ len (extraction_excerpt tender_text) = N.min 5000 (len tender_text)
   /\ is_prefix (extraction_excerpt tender_text) tender_text)
  /\ (description (task_matching tender_text profile)
      = "Compare these tender requirements: "
        +:+ audit_excerpt tender_text
        +:+ " against our company profile: " +:+ profile
        +:+ ". Find the 3 strongest 'selling points' we have for this client."
      /\ (len (audit_excerpt tender_text) <= 6000)%N
      /\ len (audit_excerpt tender_text) = N.min 6000 (len tender_text)
      /\ is_prefix (audit_excerpt tender_text) tender_text).
Proof.
  unfold extraction_excerpt, audit_excerpt.
  repeat split; try reflexivity;
    first [ apply len_slice_to_le | apply len_slice_to | apply slice_to_is_prefix ].
Qed.

(** C10: the audit task's description holds the whole business profile,
    whatever its length; no slice is taken of it. *)
Theorem audit_description_embeds_profile (tender_text profile : string) :
  contains profile (description (task_matching tender_text profile))
  /\ (len profile <= len (description (task_matching tender_text profile)))%N.
Proof.
  assert (H : contains profile (description (task_matching tender_text profile))).
  { exists ("Compare these tender requirements: "
            +:+ audit_excerpt tender_text
            +:+ " against our company profile: "),
           ". Find the 3 strongest 'selling points' we have for this client.".
    cbn [description task_matching]. by rewrite !str_app_assoc. }
  split; [exact H|].
  destruct H as (pre & post & ->). unfold len.
  rewrite !str_length_app. lia.
Qed.

End TasksFacts.

(** ** The orchestrator *)

Module OrchestratorFacts.
Import PyStr PyStrFacts Tasks Orchestrator App.

(** *** Validation at construction *)

Lemma missing_dependency_none (seen : list string) (s : PipelineStage) :
  missing_dependency seen s = None <->
  forall d, d ∈ requiredUpstreamStageIds s -> d ∈ seen.
Proof.
  unfold missing_dependency.
  induction (requiredUpstreamStageIds s) as [|d ds IH]; cbn [List.find].
  - split; [by intros _ d ?%elem_of_nil | done].
  - destruct (bool_decide (d ∈ seen)) eqn:E; cbn [negb].
    + apply bool_decide_eq_true in E. rewrite IH. split.
      * intros H x [->|Hx]%elem_of_cons; auto.
      * intros H x Hx. apply H. by right.
    + apply bool_decide_eq_false in E. split; [discriminate|].
      intros H. exfalso. apply E, H. by left.
Qed.

Lemma missing_dependency_some (seen : list string) (s : PipelineStage)
    (d : string) :
  missing_dependency seen s = Some d ->
  d ∈ requiredUpstreamStageIds s /\ d ∉ seen.
Proof.
  unfold missing_dependency. intros H.
  apply List.find_some in H as [Hin Hd].
  split; [by apply list_elem_of_In|].
  apply negb_true_iff, bool_decide_eq_false in Hd. exact Hd.
Qed.

(** [validate] accepts exactly the sequences in which every dependency is
    among [seen] or provided by an earlier stage. *)
Lemma validate_none (seen : list string) (sts : list PipelineStage) :
  validate seen sts = None <->
  forall pre s post d,
    sts = pre ++ s :: post ->
    d ∈ requiredUpstreamStageIds s ->
    d ∈ seen ++ (stage_id <$> pre).
Proof.
  revert seen. induction sts as [|s0 sts IH]; intros seen; cbn [validate].
  - split; [|done]. intros _ pre s post d H. by destruct pre.
  - destruct (missing_dependency seen s0) as [d0|] eqn:E.
    + split; [discriminate|]. intros H. exfalso.
      apply missing_dependency_some in E as [Hin Hnot].
      apply Hnot. specialize (H [] s0 sts d0 eq_refl Hin).
      by rewrite app_nil_r in H.
    + rewrite IH. split.
      * intros H pre s post d Hsplit Hd. destruct pre as [|p pre].
        -- injection Hsplit as <- <-. rewrite app_nil_r.
           by eapply missing_dependency_none.
        -- injection Hsplit as <- ->.
           specialize (H pre s post d eq_refl Hd).
           by rewrite fmap_cons, cons_middle, app_assoc.
      * intros H pre s post d -> Hd.
        specialize (H (s0 :: pre) s post d eq_refl Hd).
        by rewrite fmap_cons, cons_middle, app_assoc in H.
Qed.

Lemma validate_none_satisfied (sts : list PipelineStage) :
  validate [] sts = None <-> ~ has_unsatisfied_dependency sts.
Proof.
  rewrite validate_none. unfold has_unsatisfied_dependency. split.
  - intros H (pre & s & post & d & Hsplit & Hd & Hnot).
    apply Hnot. exact (H pre s post d Hsplit Hd).
  - intros H pre s post d Hsplit Hd. rewrite app_nil_l.
    destruct (decide (d ∈ stage_id <$> pre)) as [Hin|Hnot]; [done|].
    exfalso. apply H. by exists pre, s, post, d.
Qed.

(** C2: a stage sequence in which some stage declares a dependency that no
    earlier stage provides is refused at construction with a
    [DependencyError], and the run ends there with no prompt sent, whatever
    the client; a sequence whose dependencies are all satisfied is
    constructed without error. *)
Theorem unsatisfied_dependency_fails_fast (sts : list PipelineStage) :
  (has_unsatisfied_dependency sts ->
   exists e, new_orchestrator sts = inl e
             /\ forall client, run_pipeline client sts = (inl e, []))
  /\ (~ has_unsatisfied_dependency sts ->
      new_orchestrator sts = inr {| stages := sts |}).
Proof.
  unfold run_pipeline, new_orchestrator.
  destruct (validate [] sts) as [e|] eqn:E; split.
  - intros _. by exists e.
  - intros H. apply validate_none_satisfied in H. congruence.
  - intros H. exfalso. by apply (validate_none_satisfied sts).
  - done.
Qed.

Lemma unsatisfied_dependency_fails_fast_witness :
  run_pipeline Samples.stub_client Samples.dangling_pipeline
  = (inl (UnsatisfiedDependency "synthesis" "audit"), [])
  /\ new_orchestrator (proposal_pipeline "tender" "profile")
     = inr {| stages := proposal_pipeline "tender" "profile" |}.
Proof.
  split.
  - destruct (unsatisfied_dependency_fails_fast Samples.dangling_pipeline)
      as [Hbad _].
    destruct Hbad as (e & Hnew & Hrun).
    + exists [], {| stage_id := "synthesis"; task := task_final_proposal;
                    requiredUpstreamStageIds := ["audit"] |}, [], "audit".
      split; [reflexivity|]. split; [by left | by intros ?%elem_of_nil].
    + rewrite Hrun. f_equal. f_equal.
      vm_compute in Hnew. by injection Hnew.
  - destruct (unsatisfied_dependency_fails_fast
                (proposal_pipeline "tender" "profile")) as [_ Hgood].
    apply Hgood. apply validate_none_satisfied. reflexivity.
Defined.

(** *** Execution *)

Lemma run_stages_nil (client : LanguageModelClient)
    (ctx : gmap string string) (last : string) (calls : list string) :
  run_stages client ctx last [] calls = (inr (ctx, last), calls).
Proof. reflexivity. Qed.

(** One step of the loop, by the client's answer. *)
Lemma run_stages_cons (client : LanguageModelClient)
    (ctx : gmap string string) (last : string) (s : PipelineStage)
    (rest : list PipelineStage) (calls : list string) :
  run_stages client ctx last (s :: rest) calls =
  match client (build_prompt ctx s) with
  | inl e => (inl e, calls ++ [build_prompt ctx s])
  | inr out =>
      run_stages client (<[stage_id s := out]> ctx) out rest
                 (calls ++ [build_prompt ctx s])
  end.
Proof.
  cbn [run_stages]. unfold bind, generate.
  by destruct (client (build_prompt ctx s)).
Qed.

(** Running a sequence is running its front and then, if that succeeded,
    its back from the context reached. *)
Lemma run_stages_app (client : LanguageModelClient)
    (pre post : list PipelineStage)
    (ctx : gmap string string) (last : string) (calls : list string) :
  run_stages client ctx last (pre ++ post) calls =
  match run_stages client ctx last pre calls with
  | (inl e, sent) => (inl e, sent)
  | (inr (ctx', last'), sent) => run_stages client ctx' last' post sent
  end.
Proof.
  revert ctx last calls. induction pre as [|s pre IH]; intros ctx last calls.
  - reflexivity.
  - rewrite <- app_comm_cons, !run_stages_cons.
    destruct (client (build_prompt ctx s)) as [e|out]; [reflexivity|].
    apply IH.
Qed.

(** A successful run sends one prompt per stage. *)
Lemma run_stages_success_length (client : LanguageModelClient)
    (sts : list PipelineStage)
    (ctx ctx' : gmap string string) (last last' : string)
    (calls sent : list string) :
  run_stages client ctx last sts calls = (inr (ctx', last'), sent) ->
  length sent = length calls + length sts.
Proof.
  revert ctx last calls. induction sts as [|s sts IH]; intros ctx last calls.
  - rewrite run_stages_nil. intros [= _ _ <-]. cbn. lia.
  - rewrite run_stages_cons.
    destruct (client (build_prompt ctx s)) as [e|out]; [discriminate|].
    intros H. apply IH in H. rewrite H, length_app. cbn. lia.
Qed.

(** A failed run has a first failing stage: the stages before it ran, its
    own call failed with the error of the run, and its prompt is the last
    one sent. *)
Lemma run_stages_failure_inv (client : LanguageModelClient)
    (sts : list PipelineStage)
    (ctx : gmap string string) (last : string)
    (calls sent : list string) (e : ClientError) :
  run_stages client ctx last sts calls = (inl e, sent) ->
  exists pre s post ctx' last' sent',
    sts = pre ++ s :: post
    /\ run_stages client ctx last pre calls = (inr (ctx', last'), sent')
    /\ client (build_prompt ctx' s) = inl e
    /\ sent = sent' ++ [build_prompt ctx' s].
Proof.
  revert ctx last calls. induction sts as [|s sts IH]; intros ctx last calls.
  - rewrite run_stages_nil. discriminate.
  - rewrite run_stages_cons.
    destruct (client (build_prompt ctx s)) as [e'|out] eqn:E.
    + intros [= <- <-]. by exists [], s, sts, ctx, last, calls.
    + intros H. apply IH in H
        as (pre & s' & post & ctx' & last' & sent' & -> & Hpre & Hfail & ->).
      exists (s :: pre), s', post, ctx', last', sent'.
      split; [reflexivity|]. split; [|done].
      by rewrite run_stages_cons, E.
Qed.

Lemma kickoff_unfold (client : LanguageModelClient)
    (o : PipelineOrchestrator) (calls : list string) :
  kickoff client o calls =
  match run_stages client ∅ "" (stages o) calls with
  | (inl e, sent) => (inl e, sent)
  | (inr r, sent) => (inr r.2, sent)
  end.
Proof. reflexivity. Qed.

(** C7: when a stage's remote call fails after the stages before it have
    run, the run fails with that stage's error, the failing stage's prompt
    is the last one sent (no later stage is executed) and no artifact
    comes back; and every failed run is of this kind. *)
Theorem first_failure_aborts_run (client : LanguageModelClient) :
  (forall pre s post ctx last sent e,
     run_stages client ∅ "" pre [] = (inr (ctx, last), sent) ->
     client (build_prompt ctx s) = inl e ->
     kickoff client {| stages := pre ++ s :: post |} []
     = (inl e, sent ++ [build_prompt ctx s])
     /\ length (sent ++ [build_prompt ctx s]) = S (length pre))
  /\ (forall sts e calls,
       kickoff client {| stages := sts |} [] = (inl e, calls) ->
       exists pre s post ctx last sent,
         sts = pre ++ s :: post
         /\ run_stages client ∅ "" pre [] = (inr (ctx, last), sent)
         /\ client (build_prompt ctx s) = inl e
         /\ calls = sent ++ [build_prompt ctx s]).
Proof.
  split.
  - intros pre s post ctx last sent e Hpre Hfail. split.
    + rewrite kickoff_unfold. cbn [stages].
      by rewrite run_stages_app, Hpre, run_stages_cons, Hfail.
    + apply run_stages_success_length in Hpre.
      rewrite length_app, Hpre. cbn. lia.
  - intros sts e calls. rewrite kickoff_unfold. cbn [stages].
    destruct (run_stages client ∅ "" sts []) as [[e'|r] sent] eqn:E;
      [|discriminate].
    intros [= <- <-]. by apply run_stages_failure_inv in E.
Qed.

Lemma first_failure_aborts_run_witness :
  exists sent,
    kickoff Samples.timeout_on_synthesis
            {| stages := proposal_pipeline "tender" "profile" |} []
    = (inl TimeoutError, sent)
    /\ length sent = 2.
Proof.
  destruct (first_failure_aborts_run Samples.timeout_on_synthesis)
    as [Habort _].
  destruct (Habort
              [ {| stage_id := "audit";
                   task := task_matching "tender" "profile";
                   requiredUpstreamStageIds := [] |} ]
              {| stage_id := "synthesis";
                 task := task_final_proposal;
                 requiredUpstreamStageIds := ["audit"] |}
              []
              (<["audit" := "three selling points"]> ∅)
              "three selling points"
              [ description (task_matching "tender" "profile") +:+ "" ]
              TimeoutError eq_refl eq_refl) as [Hrun Hlen].
  eexists. split; [exact Hrun | exact Hlen].
Defined.

(** The script renders nothing of a failed run: the error leaves the
    button's block before the first widget call. *)
Lemma generate_proposal_failure (client : LanguageModelClient)
    (tender_text profile : string) (e : ClientError) (calls : list string) :
  run_pipeline client (proposal_pipeline tender_text profile)
  = (inr (inl e), calls) ->
  generate_proposal client tender_text profile = (inr (inl e), calls, []).
Proof. intros H. unfold generate_proposal. by rewrite H. Qed.

(** *** The proposal pipeline *)

Lemma build_prompt_no_dependency (ctx : gmap string string)
    (s : PipelineStage) :
  requiredUpstreamStageIds s = [] ->
  build_prompt ctx s = description (task s).
Proof.
  intros H. unfold build_prompt. rewrite H. cbn [fmap list_fmap join foldr].
  apply str_app_nil_r.
Qed.

(** C1: whatever the audit stage's call returns, the prompt assembled for
    the synthesis stage is the synthesis task's description followed by
    that output on a line of its own, so it contains the output as a
    literal substring; both prompts, and only they, are sent. *)
Theorem synthesis_prompt_contains_audit_output
    (client : LanguageModelClient) (tender_text profile audit_output : string) :
  client (description (task_matching tender_text profile)) = inr audit_output ->
  exists synthesis_prompt,
    run_pipeline client (proposal_pipeline tender_text profile)
    = (inr (client synthesis_prompt),
       [description (task_matching tender_text profile); synthesis_prompt])
    /\ synthesis_prompt
       = description task_final_proposal +:+ newline +:+ audit_output
    /\ contains audit_output synthesis_prompt.
Proof.
  intros Haudit.
  exists (description task_final_proposal +:+ newline +:+ audit_output).
  split; [|split; [reflexivity|]].
  - unfold run_pipeline.
    change (new_orchestrator _) with
      (@inr DependencyError _ {| stages := proposal_pipeline tender_text profile |}).
    cbv beta iota. rewrite kickoff_unfold. cbn [stages].
    unfold proposal_pipeline.
    rewrite run_stages_cons, build_prompt_no_dependency by reflexivity.
    cbn [task]. rewrite Haudit, run_stages_cons. cbn [stage_id].
    assert (Hsyn : build_prompt (<["audit" := audit_output]> ∅)
                     {| stage_id := "synthesis"; task := task_final_proposal;
                        requiredUpstreamStageIds := ["audit"] |}
                   = description task_final_proposal +:+ newline +:+ audit_output).
    { unfold build_prompt, upstream_output.
      cbn [requiredUpstreamStageIds task fmap list_fmap join foldr].
      rewrite lookup_insert_eq. cbn [default].
      by rewrite str_app_nil_r. }
    rewrite Hsyn.
    by destruct (client (description task_final_proposal +:+ newline +:+ audit_output)).
  - apply contains_app_r. exists newline, "". by rewrite str_app_nil_r.
Qed.

Lemma synthesis_prompt_contains_audit_output_witness :
  exists synthesis_prompt,
    (run_pipeline Samples.stub_client
       (proposal_pipeline "tender" "profile")).2 !! 1
    = Some synthesis_prompt
    /\ contains "AUDIT: price, support, SLA" synthesis_prompt.
Proof.
  destruct (synthesis_prompt_contains_audit_output Samples.stub_client
              "tender" "profile" "AUDIT: price, support, SLA" eq_refl)
    as (p & Hrun & _ & Hin).
  exists p. split; [|exact Hin]. by rewrite Hrun.
Defined.

End OrchestratorFacts.

(** ** Reruns of the script *)

Module ScriptFacts.
Import PyStr PyStrFacts Ingest Profile Tasks Script.

Local Set Warnings "-clear-no-such-hyp".

Ltac reduce_page :=
  cbv beta iota zeta delta [fst snd session_state rendered kickoffs app].

Ltac unfold_script :=
  unfold rerun, script, page_setup, sidebar_block, ingest_block,
    requirements_block, proposal_block, mbind, mret, st, has_key, get_attr,
    set_attr, kickoff, call_load_business_profile,
    call_extract_text_from_pdf;
  reduce_page.

Ltac unfold_effect :=
  unfold effect, tender_step, requirements_step, proposal_step.

(** Case analysis on the next test the goal branches on; what is already
    known of a test is used instead of asking again. *)
Ltac next_case :=
  first
    [ progress reduce_page
    | match goal with
      | |- context [<[?k := ?v]> ?m !! ?k] =>
          rewrite (lookup_insert_eq m k v)
      | |- context [<[?k := ?v]> ?m !! ?k'] =>
          rewrite (lookup_insert_ne m k k' v) by done
      | H : ?x = _ |- context [match ?x with _ => _ end] => rewrite H
      | H : ?m !! ?k = _ |- context [?m !! ?k] => rewrite H
      | |- context [bool_decide (is_Some (Some ?v))] =>
          rewrite (bool_decide_eq_true_2 (is_Some (Some v))) by eauto
      | |- context [bool_decide (is_Some (@None ?A))] =>
          rewrite (bool_decide_eq_false_2 (is_Some (@None A)))
            by (by intros [? ?])
      end
    | match goal with
      | |- context [bool_decide (is_Some (?m !! ?k))] =>
          destruct (m !! k) eqn:?
      end
    | match goal with
      | |- context [match ?x with _ => _ end] =>
          lazymatch x with
          | context [match _ with _ => _ end] => fail
          | _ => destruct x eqn:?
          end
      end ].

Section Facts.

Context {E : Type}.
Variable PdfReader : string -> PdfReadError + list PageObject.
Variable crew_kickoff : Crew -> E + string.
Variable fs : FileSystem.

Abbreviation rerun := (rerun E PdfReader crew_kickoff fs).
Abbreviation effect := (effect E PdfReader crew_kickoff fs).

(** The decision tree is the script's: both agree on what is returned or
    raised, on the session state and on the crews kicked off. *)
Lemma rerun_effect (inp : Inputs) (session : gmap string string) :
  observe E (rerun inp session) = effect inp session.
Proof.
  unfold observe. unfold_script. unfold_effect.
  repeat next_case; done.
Qed.

Lemma rerun_result (inp : Inputs) (session : gmap string string) :
  (rerun inp session).1 = (effect inp session).1.1.
Proof. by rewrite <- rerun_effect. Qed.

Lemma rerun_session (inp : Inputs) (session : gmap string string) :
  session_state (rerun inp session).2 = (effect inp session).1.2.
Proof. by rewrite <- rerun_effect. Qed.

Lemma rerun_kickoffs (inp : Inputs) (session : gmap string string) :
  kickoffs (rerun inp session).2 = (effect inp session).2.
Proof. by rewrite <- rerun_effect. Qed.

Ltac by_effect :=
  rewrite ?rerun_result, ?rerun_session, ?rerun_kickoffs; unfold_effect.

(** X1: a rerun never removes or overwrites an entry of the session state,
    whether it ends normally or with an exception. *)
Theorem session_only_grows (inp : Inputs) (session : gmap string string)
    (k v : string) :
  session !! k = Some v ->
  session_state (rerun inp session).2 !! k = Some v.
Proof.
  intros Hk. by_effect.
  repeat next_case; simplify_map_eq; done.
Qed.


(** X3: without an uploaded file a rerun leaves the session state as it
    is and kicks off no crew, whatever the checkbox and the button say; it
    fails only if the profile cannot be loaded. *)
Theorem no_upload_is_inert (inp : Inputs) (session : gmap string string) :
  uploaded_file inp = None ->
  observe E (rerun inp session)
  = (match load_business_profile fs with
     | inl e => inl (ProfileError e)
     | inr _ => inr tt
     end, session, []).
Proof.
  intros Hup. rewrite rerun_effect. unfold effect. rewrite Hup.
  by destruct (load_business_profile fs).
Qed.

(** X4: when the profile cannot be loaded the rerun ends with that
    exception in the sidebar: the session state is untouched, no crew is
    kicked off and the file uploader is never rendered. *)
Theorem profile_error_aborts (inp : Inputs) (session : gmap string string)
    (e : PyException) :
  load_business_profile fs = inl e ->
  observe E (rerun inp session) = (inl (ProfileError e), session, [])
  /\ forall label type_ value,
       st_file_uploader label type_ value ∉ rendered (rerun inp session).2.
Proof.
  intros Hload. split.
  - rewrite rerun_effect. unfold effect. by rewrite Hload.
  - intros label type_ value. unfold_script. rewrite Hload.
    cbn [fst snd session_state rendered kickoffs app].
    intros Hin.
    repeat (apply elem_of_cons in Hin as [Hin|Hin]; [discriminate Hin|]).
    by apply elem_of_nil in Hin.
Qed.

(** X6: however the session state and the inputs stand, a rerun never
    reads a session key that is absent: no [AttributeError] is raised. *)
Theorem never_attribute_error (inp : Inputs) (session : gmap string string)
    (key : string) :
  (rerun inp session).1 <> inl (AttributeError key).
Proof.
  by_effect. repeat next_case; cbn; congruence.
Qed.

(** X7: after a rerun that ended normally, the next rerun with the same
    widgets (the button released) changes nothing in the session state and
    kicks off no crew. *)
Theorem rerun_settles (inp : Inputs) (session : gmap string string) :
  (rerun inp session).1 = inr tt ->
  observe E (rerun (released inp) (session_state (rerun inp session).2))
  = (inr tt, session_state (rerun inp session).2, []).
Proof.
  rewrite rerun_effect, rerun_result, rerun_session. unfold_effect.
  cbn [released view_profile uploaded_file show_requirements generate_clicked].
  intros Hok.
  repeat (next_case; cbn [fst snd] in *; simplify_map_eq); congruence.
Qed.

(** X8: when the parser rejects the upload the rerun ends with its
    exception; nothing is stored, so the next rerun parses again, and no
    crew is kicked off. *)
Theorem ingest_error_keeps_session (inp : Inputs)
    (session : gmap string string) (f : UploadedFile) (profile : string)
    (e : PdfReadError) :
  session !! "tender_text" = None ->
  uploaded_file inp = Some f ->
  load_business_profile fs = inr profile ->
  extract_text_from_pdf PdfReader f = inl e ->
  observe E (rerun inp session) = (inl (IngestError e), session, []).
Proof.
  intros Hs Hup Hload Hparse. rewrite rerun_effect. unfold effect, tender_step.
  by rewrite Hload, Hup, Hs, Hparse.
Qed.

(** X9: a crew is kicked off only on request: with the button not clicked
    and the requirements either not asked for or already in the session
    state, a rerun kicks off nothing. *)
Theorem kickoffs_only_on_request (inp : Inputs)
    (session : gmap string string) :
  generate_clicked inp = false ->
  show_requirements inp = false \/ is_Some (session !! "extracted_reqs") ->
  kickoffs (rerun inp session).2 = [].
Proof.
  intros Hgen Hshow. by_effect. rewrite Hgen.
  destruct Hshow as [->|[r Hr]]; repeat next_case; simplify_map_eq; done.
Qed.

(** X10: the text of a freshly parsed upload is in the session state after
    the rerun even when a later step of the same rerun fails. *)
Theorem ingested_text_survives_failure (inp : Inputs)
    (session : gmap string string) (f : UploadedFile) (profile text : string) :
  session !! "tender_text" = None ->
  uploaded_file inp = Some f ->
  load_business_profile fs = inr profile ->
  extract_text_from_pdf PdfReader f = inr text ->
  session_state (rerun inp session).2 !! "tender_text" = Some text.
Proof.
  intros Hs Hup Hload Hparse. by_effect. rewrite Hload, Hup, Hs, Hparse.
  repeat next_case; simplify_map_eq; done.
Qed.

(** X21: a download is offered only for a proposal that was generated in
    this rerun: the button was clicked, the rerun ended normally, the data
    offered are the text shown on the page, and that text is what the
    kickoff of the proposal crew, built from the session's tender text and
    the loaded profile, returned. *)
Theorem download_is_the_displayed_result (inp : Inputs)
    (session : gmap string string) (label data file_name mime : string) :
  st_download_button label data file_name mime
    ∈ rendered (rerun inp session).2 ->
  generate_clicked inp = true
  /\ (rerun inp session).1 = inr tt
  /\ st_markdown data false ∈ rendered (rerun inp session).2
  /\ file_name = "Strategic_Proposal.txt"
  /\ exists tender_text profile,
       session_state (rerun inp session).2 !! "tender_text" = Some tender_text
       /\ load_business_profile fs = inr profile
       /\ crew_kickoff (crew tender_text profile) = inr data.
Proof.
  pattern (rerun inp session).
  match goal with |- ?P _ => set (Q := P) end.
  unfold_script.
  repeat next_case; subst Q; reduce_page; intros Hin;
    repeat (apply elem_of_cons in Hin as [Hin|Hin];
            [try discriminate Hin|]);
    try (by apply elem_of_nil in Hin).
  all: injection Hin as -> -> -> ->.
  all: split; [done|]; split; [done|].
  all: split; [repeat first [apply list_elem_of_here
                            | apply list_elem_of_further]|].
  all: split; [done|].
  all: simplify_map_eq; eauto 10.
Qed.

(** X22: a rerun kicks off at most two crews, the requirements crew before
    the proposal crew, and both are built from the tender text the session
    state holds after the rerun (the proposal crew also from the loaded
    profile). *)
Theorem kickoffs_shape (inp : Inputs) (session : gmap string string) :
  kickoffs (rerun inp session).2 = []
  \/ exists tender_text,
       session_state (rerun inp session).2 !! "tender_text" = Some tender_text
       /\ (kickoffs (rerun inp session).2 = [crew_extract tender_text]
           \/ exists profile,
                load_business_profile fs = inr profile
                /\ (kickoffs (rerun inp session).2
                    = [crew tender_text profile]
                    \/ kickoffs (rerun inp session).2
                       = [crew_extract tender_text;
                          crew tender_text profile])).
Proof.
  by_effect.
  repeat next_case; simplify_map_eq; cbn [app]; eauto 10.
Qed.

End Facts.

(** X5: once the session state holds a tender text, the uploaded file is
    not read again: whichever file sits in the uploader and whatever the
    parser would make of it, the rerun does the same, and every crew it
    kicks off is built from the stored text. *)
Theorem cached_tender_text_wins {E : Type}
    (PdfReader PdfReader' : string -> PdfReadError + list PageObject)
    (crew_kickoff : Crew -> E + string) (fs : FileSystem)
    (inp : Inputs) (f f' : UploadedFile)
    (session : gmap string string) (text : string) :
  session !! "tender_text" = Some text ->
  observe E (rerun E PdfReader crew_kickoff fs
               (with_upload inp (Some f)) session)
  = observe E (rerun E PdfReader' crew_kickoff fs
                 (with_upload inp (Some f')) session)
  /\ forall c,
       c ∈ kickoffs (rerun E PdfReader crew_kickoff fs
                       (with_upload inp (Some f)) session).2 ->
       c = crew_extract text
       \/ exists profile,
            load_business_profile fs = inr profile /\ c = crew text profile.
Proof.
  intros Hs. split.
  - rewrite !rerun_effect. unfold effect, tender_step.
    cbn [with_upload uploaded_file]. by rewrite Hs.
  - intros c. rewrite rerun_kickoffs. unfold_effect.
    cbn [with_upload view_profile uploaded_file show_requirements
           generate_clicked].
    rewrite Hs.
    repeat next_case; cbn [app];
      rewrite ?elem_of_cons, ?elem_of_nil; naive_solver.
Qed.

(** *** The theorems above on concrete reruns *)

Lemma session_only_grows_witness :
  session_state
    (rerun unit Samples.one_page_reader ScriptSamples.counting_kickoff
       Samples.fs_with_profile ScriptSamples.all_on
       ScriptSamples.warm_session).2 !! "tender_text"
  = Some "old tender".
Proof. apply session_only_grows. reflexivity. Defined.

Lemma no_upload_is_inert_witness :
  observe unit
    (rerun unit ScriptSamples.rejecting_reader ScriptSamples.failing_kickoff
       Samples.fs_with_profile ScriptSamples.idle ∅)
  = (inr tt, ∅, []).
Proof.
  exact (no_upload_is_inert ScriptSamples.rejecting_reader
           ScriptSamples.failing_kickoff Samples.fs_with_profile
           ScriptSamples.idle ∅ eq_refl).
Defined.

Lemma profile_error_aborts_witness :
  observe unit
    (rerun unit Samples.one_page_reader ScriptSamples.counting_kickoff
       Samples.fs_locked_profile ScriptSamples.all_on ∅)
  = (inl (ProfileError PermissionError), ∅, []).
Proof.
  apply (profile_error_aborts Samples.one_page_reader
           ScriptSamples.counting_kickoff Samples.fs_locked_profile
           ScriptSamples.all_on ∅ PermissionError).
  reflexivity.
Defined.

Lemma cached_tender_text_wins_witness :
  observe unit
    (rerun unit Samples.one_page_reader ScriptSamples.counting_kickoff
       Samples.fs_with_profile
       (with_upload ScriptSamples.all_on (Some Samples.upload_a))
       ScriptSamples.warm_session)
  = observe unit
      (rerun unit ScriptSamples.rejecting_reader
         ScriptSamples.counting_kickoff Samples.fs_with_profile
         (with_upload ScriptSamples.all_on (Some ScriptSamples.other_upload))
         ScriptSamples.warm_session).
Proof.
  apply (cached_tender_text_wins Samples.one_page_reader
           ScriptSamples.rejecting_reader ScriptSamples.counting_kickoff
           Samples.fs_with_profile ScriptSamples.all_on Samples.upload_a
           ScriptSamples.other_upload ScriptSamples.warm_session
           "old tender").
  reflexivity.
Defined.

Lemma rerun_settles_witness :
  observe unit
    (rerun unit Samples.one_page_reader ScriptSamples.counting_kickoff
       Samples.fs_with_profile (released ScriptSamples.all_on)
       (session_state
          (rerun unit Samples.one_page_reader ScriptSamples.counting_kickoff
             Samples.fs_with_profile ScriptSamples.all_on ∅).2))
  = (inr tt,
     session_state
       (rerun unit Samples.one_page_reader ScriptSamples.counting_kickoff
          Samples.fs_with_profile ScriptSamples.all_on ∅).2,
     []).
Proof. apply rerun_settles. vm_compute. reflexivity. Defined.

Lemma ingest_error_keeps_session_witness :
  observe unit
    (rerun unit ScriptSamples.rejecting_reader ScriptSamples.counting_kickoff
       Samples.fs_with_profile ScriptSamples.all_on ∅)
  = (inl (IngestError (PdfReadError_ "EOF marker not found")), ∅, []).
Proof.
  apply (ingest_error_keeps_session ScriptSamples.rejecting_reader
           ScriptSamples.counting_kickoff Samples.fs_with_profile
           ScriptSamples.all_on ∅ Samples.upload_a
           "Cloud migration and 24/7 support.");
    reflexivity.
Defined.

Lemma kickoffs_only_on_request_witness :
  kickoffs
    (rerun unit Samples.one_page_reader ScriptSamples.counting_kickoff
       Samples.fs_with_profile (released ScriptSamples.all_on)
       ScriptSamples.warm_session).2
  = [].
Proof.
  apply kickoffs_only_on_request; [reflexivity|].
  right. exists "old requirements". reflexivity.
Defined.

Lemma ingested_text_survives_failure_witness :
  session_state
    (rerun unit Samples.one_page_reader ScriptSamples.failing_kickoff
       Samples.fs_with_profile ScriptSamples.all_on ∅).2 !! "tender_text"
  = Some "%PDF-1.7 scope".
Proof.
  apply (ingested_text_survives_failure Samples.one_page_reader
           ScriptSamples.failing_kickoff Samples.fs_with_profile
           ScriptSamples.all_on ∅ Samples.upload_a
           "Cloud migration and 24/7 support.");
    reflexivity.
Defined.

Lemma download_is_the_displayed_result_witness :
  st_markdown "# Proposal" false
  ∈ rendered
      (rerun unit Samples.one_page_reader ScriptSamples.counting_kickoff
         Samples.fs_with_profile ScriptSamples.all_on ∅).2.
Proof.
  destruct (download_is_the_displayed_result Samples.one_page_reader
              ScriptSamples.counting_kickoff Samples.fs_with_profile
              ScriptSamples.all_on ∅ "Download Proposal as Text"
              "# Proposal" "Strategic_Proposal.txt" "text/plain")
    as (_ & _ & Hshown & _); [|exact Hshown].
  vm_compute.
  repeat first [apply list_elem_of_here | apply list_elem_of_further].
Defined.

End ScriptFacts.

(** ** More on slices *)

Module PyStrMore.
Import PyStr PyStrFacts.

Lemma slice_to_zero (s : string) : slice_to 0 s = "".
Proof. by destruct s. Qed.

(** Slicing twice is slicing once at the smaller bound. *)
Lemma slice_to_slice_to (m n : N) (s : string) :
  slice_to m (slice_to n s) = slice_to (N.min m n) s.
Proof.
  revert m n. induction s as [|c s IH]; intros m n; [reflexivity|].
  cbn [slice_to]. destruct (n =? 0)%N eqn:En.
  - apply N.eqb_eq in En. subst n. rewrite N.min_0_r. reflexivity.
  - apply N.eqb_neq in En. cbn [slice_to]. destruct (m =? 0)%N eqn:Em.
    + apply N.eqb_eq in Em. subst m. rewrite N.min_0_l. reflexivity.
    + apply N.eqb_neq in Em.
      assert (Hmin : (N.min m n =? 0)%N = false) by (apply N.eqb_neq; lia).
      rewrite Hmin, IH. f_equal. f_equal. lia.
Qed.

(** Text appended beyond the bound does not reach the slice. *)
Lemma slice_to_app_long (n : N) (s x : string) :
  (n <= len s)%N -> slice_to n (s +:+ x) = slice_to n s.
Proof.
  unfold len. revert n. induction s as [|c s IH]; intros n Hn.
  - cbn in Hn. assert (n = 0%N) as -> by lia.
    rewrite str_app_nil_l. apply slice_to_zero.
  - rewrite str_app_cons. cbn [slice_to].
    destruct (n =? 0)%N eqn:En; [reflexivity|].
    apply N.eqb_neq in En. f_equal. apply IH.
    cbn [String.length] in Hn. lia.
Qed.

End PyStrMore.

(** ** More on ingestion *)

Module IngestMore.
Import PyStr PyStrFacts Ingest IngestFacts.

Lemma extract_pages_one (p : PageObject) :
  extract_pages [p] = default "" (extract_text p).
Proof.
  unfold extract_pages. cbn [fold_left]. rewrite loop_body_text, str_app_nil_l.
  destruct (extract_text p) as [c|]; [|reflexivity].
  cbn [content_truthy default]. by destruct c.
Qed.

(** X11: no page's text is lost: whatever a page's extraction yields occurs
    in the ingested text as a literal substring. *)
Theorem no_page_text_lost (pages : list PageObject) (p : PageObject)
    (content : string) :
  p ∈ pages ->
  extract_text p = Some content ->
  contains content (extract_pages pages).
Proof.
  intros Hin Hp. apply list_elem_of_split in Hin as (l1 & l2 & ->).
  change (p :: l2) with ([p] ++ l2).
  rewrite !extract_pages_app, extract_pages_one, Hp. cbn [default].
  apply contains_mid.
Qed.

Lemma no_page_text_lost_witness :
  contains "Budget." (extract_pages ScriptSamples.three_pages).
Proof.
  apply (no_page_text_lost ScriptSamples.three_pages
           {| extract_text := Some "Budget." |}); [|reflexivity].
  do 2 right. left.
Defined.

(** X12: pages without text play no part: dropping every page whose
    extraction is empty or absent leaves the ingested text unchanged. *)
Theorem falsy_pages_irrelevant (pages : list PageObject) :
  extract_pages
    (List.filter (fun p => content_truthy (extract_text p)) pages)
  = extract_pages pages.
Proof.
  induction pages as [|p pages IH]; [reflexivity|].
  change (p :: pages) with ([p] ++ pages). rewrite extract_pages_app.
  cbn [List.filter app].
  destruct (content_truthy (extract_text p)) eqn:Hp.
  - change (p :: ?l) with ([p] ++ l). by rewrite extract_pages_app, IH.
  - rewrite IH, extract_pages_one.
    destruct (extract_text p) as [c|]; cbn [default]; [|reflexivity].
    cbn [content_truthy] in Hp. apply truthy_false in Hp. by subst c.
Qed.

(** X13: ingestion goes page by page with no state beyond the text so far:
    the text of a document whose pages are those of one document followed
    by those of another is the first text followed by the second, and its
    length is the sum of the two lengths. *)
Theorem ingest_of_appended_pages (front back : list PageObject) :
  extract_pages (front ++ back) = extract_pages front +:+ extract_pages back
  /\ len (extract_pages (front ++ back))
     = (len (extract_pages front) + len (extract_pages back))%N.
Proof.
  rewrite extract_pages_app. split; [reflexivity|].
  unfold len. rewrite str_length_app. lia.
Qed.

End IngestMore.

(** ** More on the task descriptions *)

Module TasksMore.
Import PyStr PyStrFacts PyStrMore Tasks.

(** X17: a tender text within the limit is embedded whole: up to 5000
    characters in the extraction task, up to 6000 in the audit task. *)
Theorem short_text_embedded_whole (tender_text profile : string) :
  ((len tender_text <= 5000)%N ->
   description (extraction_task tender_text)
   = "Summarize the 5 most important technical requirements from this text: "
     +:+ tender_text)
  /\ ((len tender_text <= 6000)%N ->
      description (task_matching tender_text profile)
      = "Compare these tender requirements: " +:+ tender_text
        +:+ " against our company profile: " +:+ profile
        +:+ ". Find the 3 strongest 'selling points' we have for this client.").
Proof.
  split; intros Hlen; cbn [description extraction_task task_matching];
    unfold extraction_excerpt, audit_excerpt; by rewrite slice_to_short.
Qed.

Lemma short_text_embedded_whole_witness :
  description (extraction_task "Must support 99.9% uptime.")
  = "Summarize the 5 most important technical requirements from this text: Must support 99.9% uptime.".
Proof.
  destruct (short_text_embedded_whole "Must support 99.9% uptime." "")
    as [Hshort _].
  rewrite Hshort; [reflexivity|]. by vm_compute.
Defined.

(** X18: the extraction task sees an initial part of what the audit task
    sees: its excerpt is the first 5000 characters of the audit excerpt. *)
Theorem extraction_excerpt_within_audit_excerpt (tender_text : string) :
  extraction_excerpt tender_text = slice_to 5000 (audit_excerpt tender_text)
  /\ is_prefix (extraction_excerpt tender_text) (audit_excerpt tender_text).
Proof.
  assert (H : extraction_excerpt tender_text
              = slice_to 5000 (audit_excerpt tender_text)).
  { unfold extraction_excerpt, audit_excerpt, extraction_limit, audit_limit.
    by rewrite slice_to_slice_to. }
  split; [exact H|]. rewrite H. apply slice_to_is_prefix.
Qed.

(** X19: text beyond the limit never reaches a task: once the tender text
    has 6000 characters (5000 for the extraction task), anything appended
    to it leaves the task as it is. *)
Theorem text_beyond_limit_ignored (tender_text more profile : string) :
  ((5000 <= len tender_text)%N ->
   extraction_task (tender_text +:+ more) = extraction_task tender_text)
  /\ ((6000 <= len tender_text)%N ->
      task_matching (tender_text +:+ more) profile
      = task_matching tender_text profile).
Proof.
  split; intros Hlen; unfold extraction_task, task_matching,
    extraction_excerpt, audit_excerpt; by rewrite slice_to_app_long.
Qed.

Lemma text_beyond_limit_ignored_witness :
  task_matching (ScriptSamples.long_tender +:+ " Appendix Z.") "profile"
  = task_matching ScriptSamples.long_tender "profile".
Proof.
  destruct (text_beyond_limit_ignored ScriptSamples.long_tender
              " Appendix Z." "profile") as [_ Hlong].
  apply Hlong. by vm_compute.
Defined.

(** X20: the size of the requests: the extraction description has 70
    characters plus the excerpt, at most 5070; the audit description has
    129 characters plus the excerpt and the whole profile. *)
Theorem description_length (tender_text profile : string) :
  len (description (extraction_task tender_text))
  = (70 + N.min 5000 (len tender_text))%N
  /\ (len (description (extraction_task tender_text)) <= 5070)%N
  /\ len (description (task_matching tender_text profile))
     = (129 + N.min 6000 (len tender_text) + len profile)%N.
Proof.
  assert (He : len (description (extraction_task tender_text))
               = (70 + N.min 5000 (len tender_text))%N).
  { cbn [description extraction_task].
    unfold extraction_excerpt, extraction_limit.
    rewrite <- len_slice_to. unfold len. rewrite str_length_app.
    cbn [String.length]. lia. }
  split; [exact He|]. split; [lia|].
  cbn [description task_matching]. unfold audit_excerpt, audit_limit.
  rewrite <- len_slice_to. unfold len. rewrite !str_length_app.
  cbn [String.length]. lia.
Qed.

End TasksMore.
